(** * eldrin-app-vue: the migration-aware bootstrap, the lifecycle composer
      and the composables, embedded from [src/createApp.ts] and
      [src/composables.ts].

    The TypeScript code is effectful: it mutates two records captured by a
    closure, calls functions it does not own (the migration runner, the
    callbacks of the integrating application, the shell's capability,
    [console]), catches exceptions and suspends at one [await].  The
    embedding is a small resumption monad: a program runs on a store until
    it either finishes (normally or by a throw) or reaches a call that
    leaves the package, where it yields the store it has built so far
    together with a continuation. *)

From Stdlib Require Import ZArith DecimalString.
From stdpp Require Import base option list strings gmap.

(** ** JavaScript values that can be thrown *)

(** [new Error(message)]. *)
Record Error := new_Error { message : string }.

(** What a [catch (error)] clause can receive: an [Error] instance or a
    primitive.  Numbers are integers here, and objects with a [toString] of
    their own are not modelled. *)
Inductive JsValue :=
| VError (e : Error)
| VUndefined
| VNull
| VBool (b : bool)
| VNumber (z : Z)
| VString (s : string).

(** [String(v)]. *)
Definition String_ (v : JsValue) : string :=
  match v with
  | VError e => "Error: " +:+ message e
  | VUndefined => "undefined"
  | VNull => "null"
  | VBool true => "true"
  | VBool false => "false"
  | VNumber z => NilZero.string_of_int (Z.to_int z)
  | VString s => s
  end.

(** How a call ends: it returns (a promise resolves) or it throws (a
    promise rejects). *)
Inductive Completion (A : Type) :=
| Normal (a : A)
| Throw (v : JsValue).
Arguments Normal {A} a.
Arguments Throw {A} v.

(** ** Data model ([src/types.ts]) *)

(** Opaque handles of the host: a D1 binding and a Vue application. *)
Inductive D1Database := D1 (binding : string).
Inductive App := VueApp (uid : nat).
Inductive Component := SFC (file : string).

Module MigrationFile.
Record t := mk { name : string; content : string }.
End MigrationFile.

Module MigrationError.
(** Modelled from the spec: the error descriptor of a [MigrationResult]
    of [@eldrin-project/eldrin-app-core], whose declaration is not part of
    the sources; [bootstrap] reads its [message]. *)
Record t := mk { message : string }.
End MigrationError.

Module MigrationResult.
(** Modelled from the spec: the [MigrationResult] type of
    [@eldrin-project/eldrin-app-core], whose declaration is not part of the
    sources: a success flag, an executed count and an optional error
    descriptor. *)
Record t := mk {
  success : bool;
  executed : Z;
  error : option MigrationError.t
}.
End MigrationResult.

(** The second argument of [runMigrations]: [{ migrations }]. *)
Module MigrationOptions.
Record t := mk { migrations : list MigrationFile.t }.
End MigrationOptions.

Module AppState.
Record t := mk {
  db : option D1Database;
  migrationsComplete : bool;
  migrationResult : option MigrationResult.t;
  vueApp : option App
}.
Definition set_db v (s : t) := mk v (migrationsComplete s) (migrationResult s) (vueApp s).
Definition set_migrationsComplete v (s : t) := mk (db s) v (migrationResult s) (vueApp s).
Definition set_migrationResult v (s : t) := mk (db s) (migrationsComplete s) v (vueApp s).
End AppState.

Module DatabaseContext.
Record t := mk {
  db : option D1Database;
  migrationsComplete : bool;
  migrationResult : option MigrationResult.t
}.
Definition set_db v (c : t) := mk v (migrationsComplete c) (migrationResult c).
Definition set_migrationsComplete v (c : t) := mk (db c) v (migrationResult c).
Definition set_migrationResult v (c : t) := mk (db c) (migrationsComplete c) v.
End DatabaseContext.

(** ** Calls that leave the package *)

(** One entry of the history of calls made so far. *)
Inductive Event :=
| console_warn (msg : string)
| console_error (msg : string) (v : JsValue)
| called_runMigrations (db : D1Database) (options : MigrationOptions.t)
| called_onMigrationsComplete (result : MigrationResult.t)
| called_onMigrationError (error : Error)
| called_getAuthHeaders.

(** A JavaScript function the package receives and calls.  It is code of
    somebody else with a state of its own, so its answer may depend on
    everything that happened before: it is a function of its argument and
    of the history of calls. *)
Definition JsFn (A B : Type) : Type := A → list Event → Completion B.

(** [Record<string, string>]. *)
Abbreviation Headers := (gmap string string).

Module User.
Record t := mk { id : string; email : string; name : option string }.
End User.

Module EldrinGlobal.
Record t := mk {
  getAuthHeaders : option (JsFn unit Headers);
  user : option User.t
}.
End EldrinGlobal.

Module Manifest.
Record t := mk { baseUrl : option string }.
End Manifest.

(** [singleSpa] and [mountParcel] are [unknown] to the package. *)
Module LifecycleProps.
Record t := mk {
  name : string;
  singleSpa : JsValue;
  mountParcel : JsValue;
  db : option D1Database;
  manifest : option Manifest.t
}.
End LifecycleProps.

Module CreateAppOptions.
Record t := mk {
  name : string;
  root : Component;
  migrations : option (list MigrationFile.t);
  onMigrationsComplete : option (JsFn MigrationResult.t unit);
  onMigrationError : option (JsFn Error unit);
  configureApp : option (JsFn App unit)
}.
End CreateAppOptions.

(** ** Programs *)

(** The calls a program can make to the outside.  [Log] is a [console]
    line; [Call f a] is the synchronous call [f(a)]; [Await f a] is
    [await f(a)], where the caller is suspended until the promise settles.
    [label] says how the call appears in the history. *)
Inductive ExtCall : Type → Type :=
| Log (e : Event) : ExtCall unit
| Call {A B : Type} (label : A → Event) (f : JsFn A B) (a : A) : ExtCall (Completion B)
| Await {A B : Type} (label : A → Event) (f : JsFn A B) (a : A) : ExtCall (Completion B).

(** A program that has run as far as it can on its own: it is finished,
    with the store [s] it leaves, or it stands at a call to the outside with
    store [s] and goes on with the answer.  The continuation takes the store
    again, because the store is shared and may have been written to while
    the program was waiting. *)
Inductive Step (S A : Type) : Type :=
| Done (r : Completion A) (s : S)
| Yield {X : Type} (c : ExtCall X) (s : S) (k : X → S → Step S A).
Arguments Done {S A} r s.
Arguments Yield {S A X} c s k.

Definition Prog (S A : Type) : Type := S → Step S A.

Section Monad.
Context {S : Type}.

Fixpoint bind_step {A B} (st : Step S A) (f : A → Prog S B) : Step S B :=
  match st with
  | Done (Normal a) s => f a s
  | Done (Throw v) s => Done (Throw v) s
  | Yield c s k => Yield c s (λ x s', bind_step (k x s') f)
  end.

(** [try { body } catch (error) { handler }]. *)
Fixpoint catch_step {A} (st : Step S A) (handler : JsValue → Prog S A) : Step S A :=
  match st with
  | Done (Normal a) s => Done (Normal a) s
  | Done (Throw v) s => handler v s
  | Yield c s k => Yield c s (λ x s', catch_step (k x s') handler)
  end.

Definition ret {A} (a : A) : Prog S A := λ s, Done (Normal a) s.
Definition throw {A} (v : JsValue) : Prog S A := λ s, Done (Throw v) s.
Definition bind {A B} (m : Prog S A) (f : A → Prog S B) : Prog S B :=
  λ s, bind_step (m s) f.
Definition try_catch {A} (body : Prog S A) (handler : JsValue → Prog S A) : Prog S A :=
  λ s, catch_step (body s) handler.

(** Reading and writing the store. *)
Definition read {A} (proj : S → A) : Prog S A := λ s, Done (Normal (proj s)) s.
Definition assign (upd : S → S) : Prog S unit := λ s, Done (Normal tt) (upd s).

(** A call to the outside whose answer is taken as it comes. *)
Definition perform {X} (c : ExtCall X) : Prog S X :=
  λ s, Yield c s (λ x s', Done (Normal x) s').

(** A throwing call throws in the caller; a rejected promise throws at
    the [await]. *)
Definition settled {A} (r : Completion A) : Prog S A :=
  match r with
  | Normal a => ret a
  | Throw v => throw v
  end.

Definition log (e : Event) : Prog S unit := perform (Log e).
Definition call {A B} label (f : JsFn A B) (a : A) : Prog S B :=
  bind (perform (Call label f a)) settled.
Definition await {A B} label (f : JsFn A B) (a : A) : Prog S B :=
  bind (perform (Await label f a)) settled.

(** [f?.(a)]: nothing happens when [f] is undefined. *)
Definition call_if_defined {A} label (f : option (JsFn A unit)) (a : A) : Prog S unit :=
  match f with
  | Some f => call label f a
  | None => ret tt
  end.
End Monad.

#[export] Instance Prog_ret {S} : MRet (Prog S) := λ A, ret.
#[export] Instance Prog_bind {S} : MBind (Prog S) := λ A B f m, bind m f.

(** ** Running a program against its environment *)

(** What is left when a program has run to its end. *)
Record Outcome (S A : Type) := mkOutcome {
  completion : Completion A;
  store : S;
  history : list Event
}.
Arguments mkOutcome {S A}.
Arguments completion {S A}.
Arguments store {S A}.
Arguments history {S A}.

(** The answer to a call, given the history before it, and its entry in
    the history. *)
Definition answer {X} (c : ExtCall X) (h : list Event) : X :=
  match c with
  | Log _ => tt
  | Call _ f a => f a h
  | Await _ f a => f a h
  end.

Definition event_of {X} (c : ExtCall X) : Event :=
  match c with
  | Log e => e
  | Call label _ a => label a
  | Await label _ a => label a
  end.

(** Nothing else runs while the program waits: every call is answered at
    once and the store comes back as it was left. *)
Fixpoint settle {S A} (st : Step S A) (h : list Event) : Outcome S A :=
  match st with
  | Done r s => mkOutcome r s h
  | Yield c s k => settle (k (answer c h) s) (h ++ [event_of c])
  end.

Definition run {S A} (p : Prog S A) (s : S) (h : list Event) : Outcome S A :=
  settle (p s) h.

(** A property of the store at every point where somebody else can look
    at it: at each call to the outside and at the end.  Whatever ran while
    the program was waiting is assumed to have kept the property. *)
Fixpoint always {S A} (P : S → Prop) (st : Step S A) : Prop :=
  match st with
  | Done _ s => P s
  | Yield c s k => P s ∧ ∀ x s', P s' → always P (k x s')
  end.

(** The number of suspensions ([await]) on the path the program takes. *)
Fixpoint suspensions {S A} (st : Step S A) (h : list Event) : nat :=
  match st with
  | Done _ _ => 0
  | Yield c s k =>
      (match c with Await _ _ _ => 1 | _ => 0 end)
      + suspensions (k (answer c h) s) (h ++ [event_of c])
  end.

(** ** [createApp] ([src/createApp.ts]) *)

(** The two records a lifecycle object closes over: [state] and the
    reactive [databaseContext].  The reactive wrapper is transparent to
    reads and writes of fields, and fields are compared by value. *)
Record Closure := mkClosure {
  state : AppState.t;
  databaseContext : DatabaseContext.t
}.

Definition on_state (f : AppState.t → AppState.t) (c : Closure) : Closure :=
  mkClosure (f (state c)) (databaseContext c).
Definition on_databaseContext (f : DatabaseContext.t → DatabaseContext.t) (c : Closure) : Closure :=
  mkClosure (state c) (f (databaseContext c)).

(** The records as [createApp] builds them. *)
Definition createApp_closure : Closure :=
  {| state := AppState.mk None false None None;
     databaseContext := DatabaseContext.mk None false None |}.

(** [error instanceof Error ? error : new Error(String(error))]. *)
Definition as_Error (error : JsValue) : Error :=
  match error with
  | VError e => e
  | _ => new_Error (String_ error)
  end.

(** [migrations = []] in the destructuring of the options. *)
Definition migrations_of (options : CreateAppOptions.t) : list MigrationFile.t :=
  default [] (CreateAppOptions.migrations options).

Section Bootstrap.
(** [import { runMigrations } from '@eldrin-project/eldrin-app-core']:
    the runner is not part of this package. *)
Variable runMigrations : JsFn (D1Database * MigrationOptions.t) MigrationResult.t.

Definition called_runner (args : D1Database * MigrationOptions.t) : Event :=
  called_runMigrations args.1 args.2.

Definition bootstrap (options : CreateAppOptions.t) (props : LifecycleProps.t)
  : Prog Closure unit :=
  let name := CreateAppOptions.name options in
  let migrations := migrations_of options in
  let onMigrationsComplete := CreateAppOptions.onMigrationsComplete options in
  let onMigrationError := CreateAppOptions.onMigrationError options in
  let db := LifecycleProps.db props in
  match db with
  | None =>
      log (console_warn ("[" +:+ name +:+ "] No database provided in lifecycle props"));;
      assign (on_state (AppState.set_migrationsComplete true));;
      assign (on_databaseContext (DatabaseContext.set_migrationsComplete true));;
      mret tt
  | Some db =>
      assign (on_state (AppState.set_db (Some db)));;
      assign (on_databaseContext (DatabaseContext.set_db (Some db)));;
      if bool_decide (0 < length migrations) then
        try_catch
          (result ← await called_runner runMigrations (db, MigrationOptions.mk migrations);
           assign (on_state (AppState.set_migrationResult (Some result)));;
           assign (on_state (AppState.set_migrationsComplete (MigrationResult.success result)));;
           assign (on_databaseContext (DatabaseContext.set_migrationResult (Some result)));;
           assign (on_databaseContext
                     (DatabaseContext.set_migrationsComplete (MigrationResult.success result)));;
           if MigrationResult.success result then
             call_if_defined called_onMigrationsComplete onMigrationsComplete result
           else
             match MigrationResult.error result with
             | Some descriptor =>
                 let error := new_Error (MigrationError.message descriptor) in
                 call_if_defined called_onMigrationError onMigrationError error
             | None => mret tt
             end)
          (λ error,
           log (console_error ("[" +:+ name +:+ "] Migration failed:") error);;
           assign (on_state (AppState.set_migrationsComplete false));;
           assign (on_databaseContext (DatabaseContext.set_migrationsComplete false));;
           call_if_defined called_onMigrationError onMigrationError (as_Error error))
      else
        assign (on_state (AppState.set_migrationsComplete true));;
        assign (on_databaseContext (DatabaseContext.set_migrationsComplete true))
  end.
End Bootstrap.

(** The second argument [bootstrap] hands to the runner. *)
Definition runner_options (options : CreateAppOptions.t) : MigrationOptions.t :=
  MigrationOptions.mk (migrations_of options).

(** ** Lifecycle objects and [combineLifecycles] *)

(** Modelled from the spec: the declarations of [LifecycleFn<T>] and of the
    generic [AppLifecycle<T>], which [createApp.ts] imports and the
    [types.ts] at hand does not contain: a lifecycle object has the three
    phases [bootstrap], [mount] and [unmount], and each phase is a single
    function or an ordered sequence of functions.  A lifecycle function is
    asynchronous code on some store [S]; awaiting it is running it to its
    end. *)
Definition LifecycleFn (S T : Type) : Type := T → Prog S unit.

Inductive Phase (S T : Type) : Type :=
| Single (fn : LifecycleFn S T)
| Array (fns : list (LifecycleFn S T)).
Arguments Single {S T} fn.
Arguments Array {S T} fns.

Module AppLifecycle.
Record t (S T : Type) := mk {
  bootstrap : Phase S T;
  mount : Phase S T;
  unmount : Phase S T
}.
Arguments mk {S T}.
Arguments bootstrap {S T}.
Arguments mount {S T}.
Arguments unmount {S T}.
End AppLifecycle.

Section Lifecycles.
Context {S T : Type}.

(** [for (const f of fns) { await body(f) }]. *)
Fixpoint for_of {A} (fns : list A) (body : A → Prog S unit) : Prog S unit :=
  match fns with
  | [] => mret tt
  | f :: rest => body f;; for_of rest body
  end.

Definition runLifecycleFn (fn : Phase S T) (props : T) : Prog S unit :=
  match fn with
  | Array fns => for_of fns (λ f, f props)
  | Single fn => fn props
  end.

Definition combineLifecycles (eldrinLifecycle vueLifecycle : AppLifecycle.t S T)
  : AppLifecycle.t S T :=
  {| AppLifecycle.bootstrap := Single (λ props,
       runLifecycleFn (AppLifecycle.bootstrap eldrinLifecycle) props;;
       runLifecycleFn (AppLifecycle.bootstrap vueLifecycle) props);
     AppLifecycle.mount := Single (λ props,
       runLifecycleFn (AppLifecycle.mount vueLifecycle) props);
     AppLifecycle.unmount := Single (λ props,
       runLifecycleFn (AppLifecycle.unmount vueLifecycle) props) |}.

(** The functions of a phase, in their order. *)
Definition phases (fn : Phase S T) : list (LifecycleFn S T) :=
  match fn with
  | Single fn => [fn]
  | Array fns => fns
  end.

(** What the specification asks of a sequence of phases, said without
    the code: each function is run to its end from the store and the
    history the one before it left, and a function that rejects ends the
    sequence there. *)
Fixpoint in_order (fns : list (LifecycleFn S T)) (props : T) (s : S) (h : list Event)
  : Outcome S unit :=
  match fns with
  | [] => mkOutcome (Normal tt) s h
  | fn :: rest =>
      let o := run (fn props) s h in
      match completion o with
      | Normal _ => in_order rest props (store o) (history o)
      | Throw _ => o
      end
  end.
End Lifecycles.

(** [createApp]: the lifecycle object over the closure [createApp_closure].
    [mount] and [unmount] are those of [singleSpaVue(...)], which is not
    part of this package and is taken as it comes; so are the render
    function and the instance hook handed to it. *)
Definition createApp
    (runMigrations : JsFn (D1Database * MigrationOptions.t) MigrationResult.t)
    (vueLifecycles : AppLifecycle.t Closure LifecycleProps.t)
    (options : CreateAppOptions.t) : AppLifecycle.t Closure LifecycleProps.t :=
  {| AppLifecycle.bootstrap := Single (bootstrap runMigrations options);
     AppLifecycle.mount := AppLifecycle.mount vueLifecycles;
     AppLifecycle.unmount := AppLifecycle.unmount vueLifecycles |}.

(** The three fields the two records have in common hold the same. *)
Definition agree (c : Closure) : Prop :=
  AppState.db (state c) = DatabaseContext.db (databaseContext c) ∧
  AppState.migrationsComplete (state c)
    = DatabaseContext.migrationsComplete (databaseContext c) ∧
  AppState.migrationResult (state c) = DatabaseContext.migrationResult (databaseContext c).

(** ** Composables ([src/composables.ts]) *)

Module Window.
Record t := mk { __ELDRIN__ : option EldrinGlobal.t }.
End Window.

(** What a composable finds around it: what [inject(DatabaseContextKey)]
    yields at the calling site (nothing outside an Eldrin app) and the
    [window] object. *)
Record Ambient := mkAmbient {
  provided : option DatabaseContext.t;
  window : Window.t
}.

Inductive InjectionKey := DatabaseContextKey.

Definition inject (key : InjectionKey) : Prog Ambient (option DatabaseContext.t) :=
  match key with
  | DatabaseContextKey => read provided
  end.

Definition useDatabase : Prog Ambient (option D1Database) :=
  context ← inject DatabaseContextKey;
  match context with
  | None =>
      log (console_warn "useDatabase() called outside of Eldrin app context");;
      mret None
  | Some context => mret (DatabaseContext.db context)
  end.

Definition useDatabaseContext : Prog Ambient DatabaseContext.t :=
  context ← inject DatabaseContextKey;
  match context with
  | None =>
      log (console_warn "useDatabaseContext() called outside of Eldrin app context");;
      mret (DatabaseContext.mk None false None)
  | Some context => mret context
  end.

Definition useMigrationsComplete : Prog Ambient bool :=
  context ← inject DatabaseContextKey;
  mret (default false (DatabaseContext.migrationsComplete <$> context)).

(** [win.__ELDRIN__ ?? null]: an absent global is [None] either way. *)
Definition getEldrinGlobal : Prog Ambient (option EldrinGlobal.t) :=
  win ← read window;
  mret (Window.__ELDRIN__ win).

Definition useEldrinGlobal : Prog Ambient (option EldrinGlobal.t) :=
  getEldrinGlobal.

(** [eldrin?.getAuthHeaders?.() ?? {}].  The capability is typed to return
    a mapping, so [??] falls back to [{}] only where the optional chain
    stopped at an absent global or capability. *)
Definition useAuthHeaders : Prog Ambient Headers :=
  eldrin ← useEldrinGlobal;
  match eldrin with
  | None => mret ∅
  | Some eldrin =>
      match EldrinGlobal.getAuthHeaders eldrin with
      | None => mret ∅
      | Some getAuthHeaders => call (λ _, called_getAuthHeaders) getAuthHeaders tt
      end
  end.

(** ** Vocabulary of the statements *)


Definition is_runner_call (e : Event) : bool :=
  match e with
  | called_runMigrations _ _ => true
  | _ => false
  end.

(** How often the runner has been called in a history. *)
Definition runner_calls (h : list Event) : nat :=
  length (List.filter is_runner_call h).

(** ** Concrete inputs *)

Definition example_db : D1Database := D1 "DB".

Definition example_migrations : list MigrationFile.t :=
  [MigrationFile.mk "0001_init.sql" "CREATE TABLE items (id INTEGER PRIMARY KEY)"].

Definition example_props : LifecycleProps.t :=
  LifecycleProps.mk "my-vue-app" VUndefined VUndefined (Some example_db) None.


Definition example_options onMigrationsComplete onMigrationError : CreateAppOptions.t :=
  CreateAppOptions.mk "my-vue-app" (SFC "App.vue") (Some example_migrations)
    onMigrationsComplete onMigrationError None.

Definition example_success : MigrationResult.t := MigrationResult.mk true 1 None.


Definition example_silent_failure : MigrationResult.t := MigrationResult.mk false 0 None.

Definition runner_resolving (result : MigrationResult.t)
  : JsFn (D1Database * MigrationOptions.t) MigrationResult.t := λ _ _, Normal result.


Definition returning {A} : JsFn A unit := λ _ _, Normal tt.



(** A page whose shell global is present, with or without the capability,
    outside any Eldrin app. *)
Definition window_with (getAuthHeaders : option (JsFn unit Headers)) : Ambient :=
  mkAmbient None (Window.mk (Some (EldrinGlobal.mk getAuthHeaders None))).

(** A probe records its tag in a shared log, the store. *)
Definition probe (tag : string) : LifecycleFn (list string) unit :=
  λ _, assign (λ entries, entries ++ [tag]).

Definition probe_A : AppLifecycle.t (list string) unit :=
  {| AppLifecycle.bootstrap := Array [probe "A.bootstrap[0]"; probe "A.bootstrap[1]"];
     AppLifecycle.mount := Single (probe "A.mount");
     AppLifecycle.unmount := Single (probe "A.unmount") |}.

Definition probe_B : AppLifecycle.t (list string) unit :=
  {| AppLifecycle.bootstrap := Single (probe "B.bootstrap");
     AppLifecycle.mount := Array [probe "B.mount[0]"; probe "B.mount[1]"];
     AppLifecycle.unmount := Single (probe "B.unmount") |}.

(** ** Rendering the root component *)

(** The props [render] hands to the root component. *)
Module RootProps.
Record t := mk {
  db : option D1Database;
  migrationsComplete : bool;
  migrationResult : option MigrationResult.t
}.
End RootProps.

(** What Vue's [h(type, props)] builds ([h] itself names histories below). *)
Record VNode := mkVNode { type : Component; props : RootProps.t }.

(** [appOptions.render] of [createApp]: it reads [state] when Vue renders. *)
Definition render (options : CreateAppOptions.t) : Prog Closure VNode :=
  let RootComponent := CreateAppOptions.root options in
  state ← read state;
  mret (mkVNode RootComponent
          (RootProps.mk (AppState.db state) (AppState.migrationsComplete state)
             (AppState.migrationResult state))).

(** What a composable finds inside the app of a lifecycle whose closure is
    [c]: the instance hook has provided the closure's [databaseContext]
    itself, so [inject] yields that record as it is now. *)
Definition inside_app (c : Closure) (win : Window.t) : Ambient :=
  mkAmbient (Some (databaseContext c)) win.

(** ** More vocabulary *)

(** The arguments of the calls of the runner in a history, in order. *)
Definition runner_args (h : list Event) : list (D1Database * MigrationOptions.t) :=
  omap (λ e, match e with
             | called_runMigrations db options => Some (db, options)
             | _ => None
             end) h.

(** The results handed to [onMigrationsComplete] in a history, in order. *)
Definition complete_calls (h : list Event) : list MigrationResult.t :=
  omap (λ e, match e with
             | called_onMigrationsComplete result => Some result
             | _ => None
             end) h.

(** A shell capability that returns a fixed mapping. *)
Definition capability_returning (headers : Headers) : JsFn unit Headers :=
  λ _ _, Normal headers.

(** Options without a migration list. *)
Definition example_options_without_migrations : CreateAppOptions.t :=
  CreateAppOptions.mk "my-vue-app" (SFC "App.vue") None (Some returning) (Some returning) None.

(** * Proofs *)

(** ** How programs run *)

Section Running.
Context {S : Type}.

(** Running [m >>= f]: [m] to its end, then [f] from where [m] stopped,
    unless [m] threw. *)
Lemma settle_bind {A B} (st : Step S A) (f : A → Prog S B) h :
  settle (bind_step st f) h =
  let o := settle st h in
  match completion o with
  | Normal a => settle (f a (store o)) (history o)
  | Throw v => mkOutcome (Throw v) (store o) (history o)
  end.
Proof.
  revert h. induction st as [[a|v] s|X c s k IH]; intros h; simpl; auto.
Qed.

Lemma settle_catch {A} (st : Step S A) (handler : JsValue → Prog S A) h :
  settle (catch_step st handler) h =
  let o := settle st h in
  match completion o with
  | Normal a => o
  | Throw v => settle (handler v (store o)) (history o)
  end.
Proof.
  revert h. induction st as [[a|v] s|X c s k IH]; intros h; simpl; auto.
Qed.

(** What holds at every observable point holds at the end of the run. *)
Lemma always_settle {A} (P : S → Prop) (st : Step S A) h :
  always P st → P (store (settle st h)).
Proof.
  revert h. induction st as [r s|X c s k IH]; intros h; simpl; auto.
  intros [Hs Hk]. apply IH, Hk, Hs.
Qed.
End Running.

Section RunEquations.
Context {S : Type}.
Implicit Types (s : S) (h : list Event).

Lemma run_bind {A B} (m : Prog S A) (f : A → Prog S B) s h :
  run (m ≫= f) s h =
  match completion (run m s h) with
  | Normal a => run (f a) (store (run m s h)) (history (run m s h))
  | Throw v => mkOutcome (Throw v) (store (run m s h)) (history (run m s h))
  end.
Proof. apply settle_bind. Qed.

Lemma run_try_catch {A} (body : Prog S A) handler s h :
  run (try_catch body handler) s h =
  match completion (run body s h) with
  | Normal a => run body s h
  | Throw v => run (handler v) (store (run body s h)) (history (run body s h))
  end.
Proof. apply settle_catch. Qed.

Lemma run_ret {A} (a : A) s h : run (mret a) s h = mkOutcome (Normal a) s h.
Proof. reflexivity. Qed.

Lemma run_assign upd s h : run (assign upd) s h = mkOutcome (Normal tt) (upd s) h.
Proof. reflexivity. Qed.

Lemma run_read {A} (proj : S → A) s h : run (read proj) s h = mkOutcome (Normal (proj s)) s h.
Proof. reflexivity. Qed.

Lemma run_log e s h : run (log e) s h = mkOutcome (Normal tt) s (h ++ [e]).
Proof. reflexivity. Qed.

Lemma run_call {A B} label (f : JsFn A B) a s h :
  run (call label f a) s h = mkOutcome (f a h) s (h ++ [label a]).
Proof. unfold run, call, bind, perform. simpl. by destruct (f a h). Qed.

Lemma run_await {A B} label (f : JsFn A B) a s h :
  run (await label f a) s h = mkOutcome (f a h) s (h ++ [label a]).
Proof. unfold run, await, bind, perform. simpl. by destruct (f a h). Qed.

Lemma run_call_if_defined {A} label (f : option (JsFn A unit)) a s h :
  run (call_if_defined label f a) s h =
  match f with
  | Some f => mkOutcome (f a h) s (h ++ [label a])
  | None => mkOutcome (Normal tt) s h
  end.
Proof. destruct f; [apply run_call | reflexivity]. Qed.
End RunEquations.

Create Rewrite HintDb run.
#[local] Hint Rewrite @run_bind @run_try_catch @run_ret @run_assign @run_read @run_log
  @run_call @run_await @run_call_if_defined : run.

Ltac run_program := repeat (autorewrite with run; simpl).

(** Lays a program open as a tree of steps. *)
Ltac expose :=
  unfold mbind, mret, Prog_bind, Prog_ret, bind, ret, try_catch, assign, log, await,
    call_if_defined, call, perform, settled.

Lemma runner_calls_app h1 h2 : runner_calls (h1 ++ h2) = runner_calls h1 + runner_calls h2.
Proof. unfold runner_calls. by rewrite List.filter_app, length_app. Qed.

Lemma agree_createApp_closure : agree createApp_closure.
Proof. by repeat split. Qed.

(** ** The bootstrap sequencer *)

Section BootstrapFacts.
Variable runMigrations : JsFn (D1Database * MigrationOptions.t) MigrationResult.t.
Implicit Types (options : CreateAppOptions.t) (props : LifecycleProps.t).
Implicit Types (s : Closure) (h : list Event).

Lemma has_migrations options :
  migrations_of options ≠ [] →
  bool_decide (0 < length (migrations_of options)) = true.
Proof.
  intros Hne. apply bool_decide_eq_true.
  destruct (migrations_of options); [done | simpl; lia].
Qed.

(** Runs [bootstrap] up to the call of the runner, for props with a
    database handle and a migration list that is not empty. *)
Ltac enter_bootstrap Hdb Hne :=
  unfold bootstrap; rewrite Hdb; run_program;
  rewrite (has_migrations _ Hne); run_program;
  change (MigrationOptions.mk (migrations_of ?o)) with (runner_options o);
  unfold called_runner; simpl.






(** C10.  Props carry a database handle, the migration list is not empty
    and the runner resolves with [success] false and no error descriptor:
    [bootstrap] resolves, the result is stored in both records,
    [migrationsComplete] is false, and the call to the runner is the only
    call made: neither callback is called and nothing is logged. *)
Theorem bootstrap_failure_without_descriptor options props db result s h :
  LifecycleProps.db props = Some db →
  migrations_of options ≠ [] →
  runMigrations (db, runner_options options) h = Normal result →
  MigrationResult.success result = false →
  MigrationResult.error result = None →
  let o := run (bootstrap runMigrations options props) s h in
  completion o = Normal tt ∧
  AppState.migrationsComplete (state (store o)) = false ∧
  DatabaseContext.migrationsComplete (databaseContext (store o)) = false ∧
  AppState.migrationResult (state (store o)) = Some result ∧
  DatabaseContext.migrationResult (databaseContext (store o)) = Some result ∧
  history o = h ++ [called_runMigrations db (runner_options options)].
Proof.
  intros Hdb Hne Hrun Hsucc Herr o. subst o.
  enter_bootstrap Hdb Hne.
  rewrite Hrun. run_program. rewrite Hsucc, Herr. run_program.
  by repeat split.
Qed.

(** Walks the tree of steps of a program, splitting on every answer the
    outside can give. *)
Ltac walk :=
  expose;
  repeat (simpl; match goal with
    | |- _ ∧ _ => split
    | |- ∀ _, _ => intro
    | H : agree _ |- _ => destruct H as (? & ? & ?)
    | x : Completion _ |- _ => destruct x
    | |- context [match ?o with Some _ => _ | None => _ end] => destruct o
    | |- context [if ?b then _ else _] => destruct b
    | |- agree _ => unfold agree
    end);
  try done; try congruence.

(** C6.  From a closure whose two records agree on [db],
    [migrationsComplete] and [migrationResult] (as they do when [createApp]
    has built them), the records agree at every point of [bootstrap] where
    anybody else can look: at the suspension awaiting the runner, at every
    call of a callback or of [console], and when [bootstrap] has settled,
    whatever the runner and the callbacks answer.  There is at most one
    suspension. *)
Theorem bootstrap_keeps_records_in_step options props s h :
  agree s →
  always agree (bootstrap runMigrations options props s) ∧
  suspensions (bootstrap runMigrations options props s) h ≤ 1 ∧
  agree (store (run (bootstrap runMigrations options props) s h)).
Proof.
  intros Hs.
  assert (Halways : always agree (bootstrap runMigrations options props s)).
  { unfold bootstrap. walk. }
  split; [done|]. split; [|by apply (always_settle agree)].
  unfold bootstrap. expose.
  repeat (simpl; case_match); simpl; lia.
Qed.



(** When the runner has succeeded and [onMigrationsComplete] throws, the
    exception is handled by the [catch] clause like a failure of the runner:
    [migrationsComplete] ends false in both records although the stored
    result says success. *)
Lemma bootstrap_success_then_callback_throws options props db result f v s h :
  LifecycleProps.db props = Some db →
  migrations_of options ≠ [] →
  runMigrations (db, runner_options options) h = Normal result →
  MigrationResult.success result = true →
  CreateAppOptions.onMigrationsComplete options = Some f →
  f result (h ++ [called_runMigrations db (runner_options options)]) = Throw v →
  let o := run (bootstrap runMigrations options props) s h in
  AppState.migrationsComplete (state (store o)) = false ∧
  DatabaseContext.migrationsComplete (databaseContext (store o)) = false ∧
  AppState.migrationResult (state (store o)) = Some result ∧
  DatabaseContext.migrationResult (databaseContext (store o)) = Some result.
Proof.
  intros Hdb Hne Hrun Hsucc Hf Hthrow o. subst o.
  enter_bootstrap Hdb Hne.
  rewrite Hrun. run_program. rewrite Hsucc, Hf. run_program.
  rewrite Hthrow. run_program.
  by destruct (CreateAppOptions.onMigrationError options).
Qed.

(** One [bootstrap] with a database handle and migrations calls the runner
    once, however the runner and the callbacks answer. *)
Lemma bootstrap_calls_runner_once options props db s h :
  LifecycleProps.db props = Some db →
  migrations_of options ≠ [] →
  runner_calls (history (run (bootstrap runMigrations options props) s h))
    = runner_calls h + 1.
Proof.
  intros Hdb Hne. enter_bootstrap Hdb Hne.
  repeat (case_match; run_program);
    rewrite ?runner_calls_app; unfold runner_calls; simpl; lia.
Qed.

(** C9.  [bootstrap] is not idempotent: with a migration list that is not
    empty, two calls in sequence, each with a database handle, call the
    runner twice. *)
Theorem bootstrap_twice_runs_runner_twice options props1 props2 db1 db2 s h :
  LifecycleProps.db props1 = Some db1 →
  LifecycleProps.db props2 = Some db2 →
  migrations_of options ≠ [] →
  let first := run (bootstrap runMigrations options props1) s h in
  let second := run (bootstrap runMigrations options props2) (store first) (history first) in
  runner_calls (history second) = runner_calls h + 2.
Proof.
  intros Hdb1 Hdb2 Hne first second. subst first second.
  rewrite (bootstrap_calls_runner_once _ _ db2), (bootstrap_calls_runner_once _ _ db1)
    by done.
  lia.
Qed.
End BootstrapFacts.

(** ** The lifecycle composer *)

Section LifecycleFacts.
Context {S T : Type}.
Implicit Types (fns : list (LifecycleFn S T)) (fn : Phase S T) (s : S) (h : list Event).

Lemma run_for_of fns props s h :
  run (for_of fns (λ f, f props)) s h = in_order fns props s h.
Proof.
  revert s h. induction fns as [|f rest IH]; intros s h; simpl.
  - reflexivity.
  - rewrite run_bind. destruct (run (f props) s h) as [[[]|v] s' h']; simpl; auto.
Qed.

Lemma run_runLifecycleFn fn props s h :
  run (runLifecycleFn fn props) s h = in_order (phases fn) props s h.
Proof.
  destruct fn as [f|fns]; simpl.
  - by destruct (run (f props) s h) as [[[]|v] s' h'].
  - apply run_for_of.
Qed.

(** Two sequences one after the other: the second starts where the first
    ended, and does not start when the first rejected. *)
Lemma in_order_app fns1 fns2 props s h :
  in_order (fns1 ++ fns2) props s h =
  match completion (in_order fns1 props s h) with
  | Normal _ =>
      in_order fns2 props (store (in_order fns1 props s h))
        (history (in_order fns1 props s h))
  | Throw _ => in_order fns1 props s h
  end.
Proof.
  revert s h. induction fns1 as [|f rest IH]; intros s h; simpl.
  - reflexivity.
  - destruct (run (f props) s h) as [[[]|v] s' h']; simpl; auto.
Qed.

(** C5.  For lifecycle objects [A] and [B] whose phases are single
    functions or arrays: the merged [bootstrap] runs [A]'s bootstrap
    functions in their order and then [B]'s in theirs, one after the other;
    [B]'s start from the store and the history [A]'s left, and only when all
    of [A]'s have completed ([B]'s do not start when one of [A]'s rejects).
    The merged [mount] runs [B]'s mount functions and nothing else, the
    merged [unmount] [B]'s unmount functions and nothing else, and the
    merged lifecycle does not depend on [A]'s [mount] and [unmount]. *)
Theorem combineLifecycles_spec (A B : AppLifecycle.t S T) props s h :
  let merged := combineLifecycles A B in
  let a := in_order (phases (AppLifecycle.bootstrap A)) props s h in
  run (runLifecycleFn (AppLifecycle.bootstrap merged) props) s h
    = in_order (phases (AppLifecycle.bootstrap A) ++ phases (AppLifecycle.bootstrap B))
        props s h ∧
  run (runLifecycleFn (AppLifecycle.bootstrap merged) props) s h
    = match completion a with
      | Normal _ => in_order (phases (AppLifecycle.bootstrap B)) props (store a) (history a)
      | Throw _ => a
      end ∧
  run (runLifecycleFn (AppLifecycle.mount merged) props) s h
    = in_order (phases (AppLifecycle.mount B)) props s h ∧
  run (runLifecycleFn (AppLifecycle.unmount merged) props) s h
    = in_order (phases (AppLifecycle.unmount B)) props s h ∧
  ∀ mount' unmount',
    combineLifecycles (AppLifecycle.mk (AppLifecycle.bootstrap A) mount' unmount') B = merged.
Proof.
  intros merged a.
  assert (Hb : run (runLifecycleFn (AppLifecycle.bootstrap merged) props) s h
               = match completion a with
                 | Normal _ =>
                     in_order (phases (AppLifecycle.bootstrap B)) props (store a) (history a)
                 | Throw _ => a
                 end).
  { subst merged a. simpl. rewrite run_bind, !run_runLifecycleFn.
    destruct (in_order _ props s h) as [[[]|v] s' h']; simpl; auto. }
  repeat split; try done.
  - rewrite Hb, in_order_app. done.
  - subst merged. simpl. by rewrite !run_runLifecycleFn.
  - subst merged. simpl. by rewrite !run_runLifecycleFn.
Qed.
End LifecycleFacts.

(** The probe pair: the shared log after the merged [bootstrap], [mount]
    and [unmount]. *)
Example combineLifecycles_probes :
  let merged := combineLifecycles probe_A probe_B in
  store (run (runLifecycleFn (AppLifecycle.bootstrap merged) tt) [] [])
    = ["A.bootstrap[0]"; "A.bootstrap[1]"; "B.bootstrap"] ∧
  store (run (runLifecycleFn (AppLifecycle.mount merged) tt) [] [])
    = ["B.mount[0]"; "B.mount[1]"] ∧
  store (run (runLifecycleFn (AppLifecycle.unmount merged) tt) [] []) = ["B.unmount"].
Proof. by repeat split. Qed.

(** ** The composables *)

Section ComposableFacts.
Implicit Types (a : Ambient) (h : list Event).

(** C7, amended.  [useAuthHeaders] leaves its surroundings as they are;
    it returns the empty mapping, calling nothing, when the shell global is
    absent or has no [getAuthHeaders]; when both are present it calls the
    capability once and ends as the capability ends: it returns the
    capability's mapping as it is when the capability returns, and raises
    what the capability raises when the capability raises.  It raises in no
    other case. *)
Theorem useAuthHeaders_spec a h :
  let o := run useAuthHeaders a h in
  store o = a ∧
  match Window.__ELDRIN__ (window a) with
  | None => completion o = Normal ∅ ∧ history o = h
  | Some eldrin =>
      match EldrinGlobal.getAuthHeaders eldrin with
      | None => completion o = Normal ∅ ∧ history o = h
      | Some getAuthHeaders =>
          completion o = getAuthHeaders tt h ∧ history o = h ++ [called_getAuthHeaders]
      end
  end.
Proof.
  unfold useAuthHeaders, useEldrinGlobal, getEldrinGlobal. run_program.
  destruct (Window.__ELDRIN__ (window a)) as [eldrin|]; run_program; [|done].
  destruct (EldrinGlobal.getAuthHeaders eldrin) as [f|]; run_program; done.
Qed.

End ComposableFacts.

(** ** The statements at concrete inputs *)








Lemma bootstrap_keeps_records_in_step_witness :
  let options := example_options (Some returning) (Some returning) in
  let program := bootstrap (runner_resolving example_success) options example_props in
  agree createApp_closure ∧
  always agree (program createApp_closure) ∧
  suspensions (program createApp_closure) [] ≤ 1 ∧
  agree (store (run program createApp_closure [])).
Proof.
  split; [by repeat split|].
  apply (bootstrap_keeps_records_in_step (runner_resolving example_success)
           (example_options (Some returning) (Some returning)) example_props
           createApp_closure []).
  by repeat split.
Defined.

(** Both branches of [useAuthHeaders] that return: no shell global, and a
    shell global whose capability returns a mapping. *)
Example useAuthHeaders_branches :
  let headers : Headers := {[ "Authorization" := "Bearer token" ]} in
  completion (run useAuthHeaders (mkAmbient None (Window.mk None)) []) = Normal ∅ ∧
  completion (run useAuthHeaders (window_with None) []) = Normal ∅ ∧
  completion (run useAuthHeaders (window_with (Some (λ _ _, Normal headers))) [])
    = Normal headers.
Proof. by repeat split. Qed.

(** C7 as stated fails when the capability throws: the shell global and
    its [getAuthHeaders] are present, and [useAuthHeaders] raises what the
    capability raises. *)
Lemma useAuthHeaders_capability_throws :
  let a := window_with (Some (λ _ _, Throw (VError (new_Error "session expired")))) in
  completion (run useAuthHeaders a []) = Throw (VError (new_Error "session expired")).
Proof. reflexivity. Qed.

Lemma bootstrap_twice_runs_runner_twice_witness :
  let options := example_options (Some returning) (Some returning) in
  let program := bootstrap (runner_resolving example_success) options example_props in
  let first := run program createApp_closure [] in
  let second := run program (store first) (history first) in
  runner_calls (history second) = 2.
Proof.
  apply (bootstrap_twice_runs_runner_twice (runner_resolving example_success)
           (example_options (Some returning) (Some returning)) example_props example_props
           example_db example_db createApp_closure []);
    [reflexivity | reflexivity | discriminate].
Defined.

Lemma bootstrap_failure_without_descriptor_witness :
  let options := example_options (Some returning) (Some returning) in
  let o := run (bootstrap (runner_resolving example_silent_failure) options example_props)
             createApp_closure [] in
  completion o = Normal tt ∧
  AppState.migrationsComplete (state (store o)) = false ∧
  DatabaseContext.migrationsComplete (databaseContext (store o)) = false ∧
  AppState.migrationResult (state (store o)) = Some example_silent_failure ∧
  DatabaseContext.migrationResult (databaseContext (store o)) = Some example_silent_failure ∧
  history o = [called_runMigrations example_db (runner_options options)].
Proof.
  apply (bootstrap_failure_without_descriptor (runner_resolving example_silent_failure)
           (example_options (Some returning) (Some returning)) example_props example_db
           example_silent_failure createApp_closure []);
    [reflexivity | discriminate | reflexivity | reflexivity | reflexivity].
Defined.

(** * Further properties of the code *)

(** ** The bootstrap sequencer, on every path *)

Section BootstrapPaths.
Variable runMigrations : JsFn (D1Database * MigrationOptions.t) MigrationResult.t.
Implicit Types (options : CreateAppOptions.t) (props : LifecycleProps.t).
Implicit Types (s : Closure) (h : list Event).

(** Splits on an answer of the outside that the run depends on. *)
Ltac split_answer :=
  match goal with
  | |- context [match ?x with _ => _ end] =>
      lazymatch x with
      | context [run] => fail
      | _ => destruct x eqn:?
      end
  end.

(** Runs [bootstrap] on every path it can take. *)
Ltac all_paths :=
  unfold bootstrap; run_program;
  repeat (split_answer; run_program);
  unfold called_runner in *; simpl in *.

Lemma bool_decide_no_migrations options :
  migrations_of options = [] →
  bool_decide (0 < length (migrations_of options)) = false.
Proof. intros ->. reflexivity. Qed.

(** X1.  Props carry a database handle and the options carry no migration
    (an empty list, or none at all): [bootstrap] resolves, stores the handle
    in both records, sets [migrationsComplete] in both, leaves
    [migrationResult] as it was, and calls nothing: not the runner, no
    callback, no [console]. *)
Theorem bootstrap_without_migrations options props db s h :
  LifecycleProps.db props = Some db →
  migrations_of options = [] →
  let o := run (bootstrap runMigrations options props) s h in
  completion o = Normal tt ∧
  AppState.db (state (store o)) = Some db ∧
  DatabaseContext.db (databaseContext (store o)) = Some db ∧
  AppState.migrationsComplete (state (store o)) = true ∧
  DatabaseContext.migrationsComplete (databaseContext (store o)) = true ∧
  AppState.migrationResult (state (store o)) = AppState.migrationResult (state s) ∧
  DatabaseContext.migrationResult (databaseContext (store o))
    = DatabaseContext.migrationResult (databaseContext s) ∧
  history o = h.
Proof.
  intros Hdb Hnone o. subst o.
  unfold bootstrap. rewrite Hdb. run_program.
  rewrite (bool_decide_no_migrations _ Hnone). run_program.
  by repeat split.
Qed.

Lemma runner_args_app h1 h2 : runner_args (h1 ++ h2) = runner_args h1 ++ runner_args h2.
Proof. apply omap_app. Qed.

Lemma complete_calls_app h1 h2 :
  complete_calls (h1 ++ h2) = complete_calls h1 ++ complete_calls h2.
Proof. apply omap_app. Qed.

(** X2.  One [bootstrap] calls the runner exactly when props carry a
    handle and the migration list is not empty, then exactly once, with that
    handle and the whole list of the options; in every other case it does
    not call it.  This holds however the runner and the callbacks answer. *)
Theorem bootstrap_runner_arguments options props s h :
  let o := run (bootstrap runMigrations options props) s h in
  runner_args (history o)
  = runner_args h
    ++ match LifecycleProps.db props, migrations_of options with
       | Some db, _ :: _ => [(db, runner_options options)]
       | _, _ => []
       end.
Proof.
  intros o. subst o. unfold runner_options.
  destruct (LifecycleProps.db props) as [db|] eqn:Hdb;
    destruct (migrations_of options) as [|m ms] eqn:Hm;
    unfold bootstrap; rewrite Hdb, ?Hm; run_program;
    repeat (split_answer; run_program);
    rewrite ?runner_args_app; simpl; by rewrite ?app_nil_r.
Qed.




(** X6.  One [bootstrap] only adds to the history, calls
    [onMigrationsComplete] at most once, and only with a result whose
    [success] is true and which it has stored as [migrationResult] in both
    records, however the runner and the callbacks answer. *)
Theorem bootstrap_reports_success_at_most_once options props s h :
  let o := run (bootstrap runMigrations options props) s h in
  ∃ new,
    history o = h ++ new ∧
    length (complete_calls new) ≤ 1 ∧
    ∀ result, result ∈ complete_calls new →
      MigrationResult.success result = true ∧
      AppState.migrationResult (state (store o)) = Some result ∧
      DatabaseContext.migrationResult (databaseContext (store o)) = Some result.
Proof.
  intros o. subst o.
  all_paths; rewrite <- ?app_assoc; simpl;
    (eexists; split; [try reflexivity; by rewrite app_nil_r|]);
    simpl; (split; [lia|]); intros r Hr;
    repeat (apply elem_of_cons in Hr as [->|Hr]); try (by apply elem_of_nil in Hr);
    by repeat split.
Qed.

(** X7.  [bootstrap] never writes [vueApp], and it never clears a stored
    handle: afterwards [db] is the handle of the props in both records when
    the props carry one, and what it was before otherwise. *)
Theorem bootstrap_frame options props s h :
  let o := run (bootstrap runMigrations options props) s h in
  AppState.vueApp (state (store o)) = AppState.vueApp (state s) ∧
  AppState.db (state (store o))
    = match LifecycleProps.db props with
      | Some db => Some db
      | None => AppState.db (state s)
      end ∧
  DatabaseContext.db (databaseContext (store o))
    = match LifecycleProps.db props with
      | Some db => Some db
      | None => DatabaseContext.db (databaseContext s)
      end.
Proof.
  intros o. subst o. all_paths; by repeat split.
Qed.

(** X8.  When [bootstrap] had migrations to run (a handle and a list that
    is not empty) and leaves [migrationsComplete] true in the context, the
    runner has resolved with a result whose [success] is true, that result
    is stored in both records, [migrationsComplete] is true in [state] too,
    and [bootstrap] has resolved. *)
Theorem migrationsComplete_after_migrating_means_success options props db s h :
  LifecycleProps.db props = Some db →
  migrations_of options ≠ [] →
  let o := run (bootstrap runMigrations options props) s h in
  DatabaseContext.migrationsComplete (databaseContext (store o)) = true →
  ∃ result,
    runMigrations (db, runner_options options) h = Normal result ∧
    MigrationResult.success result = true ∧
    AppState.migrationsComplete (state (store o)) = true ∧
    AppState.migrationResult (state (store o)) = Some result ∧
    DatabaseContext.migrationResult (databaseContext (store o)) = Some result ∧
    completion o = Normal tt.
Proof.
  intros Hdb Hne o. subst o.
  unfold bootstrap. rewrite Hdb. run_program.
  rewrite (has_migrations _ Hne). run_program.
  change (MigrationOptions.mk (migrations_of options)) with (runner_options options).
  repeat (split_answer; run_program); simpl in *; intros Hc; try done;
    repeat match goal with u : () |- _ => destruct u end;
    eexists; repeat split; eauto.
Qed.
End BootstrapPaths.

(** ** Phases and merged lifecycles *)

Section LifecycleLaws.
Context {S T : Type}.
Implicit Types (fns : list (LifecycleFn S T)) (s : S) (h : list Event).
Implicit Types (A B C : AppLifecycle.t S T).

(** X9.  [runLifecycleFn] on arrays: an empty array does nothing and
    resolves; an array of one function behaves like the function alone; an
    array [fns1 ++ fns2] runs [fns1] and then [fns2] from where [fns1]
    ended, and does not start [fns2] when a function of [fns1] rejected. *)
Theorem runLifecycleFn_array_laws (f : LifecycleFn S T) fns1 fns2 props s h :
  run (runLifecycleFn (Array []) props) s h = mkOutcome (Normal tt) s h ∧
  run (runLifecycleFn (Array [f]) props) s h = run (runLifecycleFn (Single f) props) s h ∧
  run (runLifecycleFn (Array (fns1 ++ fns2)) props) s h
  = match completion (run (runLifecycleFn (Array fns1) props) s h) with
    | Normal _ =>
        run (runLifecycleFn (Array fns2) props)
          (store (run (runLifecycleFn (Array fns1) props) s h))
          (history (run (runLifecycleFn (Array fns1) props) s h))
    | Throw _ => run (runLifecycleFn (Array fns1) props) s h
    end.
Proof.
  split; [reflexivity|]. split.
  - by rewrite !run_runLifecycleFn.
  - rewrite !run_runLifecycleFn. apply in_order_app.
Qed.

Lemma run_merged_bootstrap A B props s h :
  run (runLifecycleFn (AppLifecycle.bootstrap (combineLifecycles A B)) props) s h
  = in_order (phases (AppLifecycle.bootstrap A) ++ phases (AppLifecycle.bootstrap B))
      props s h.
Proof.
  simpl. rewrite run_bind, !run_runLifecycleFn, in_order_app.
  destruct (in_order _ props s h) as [[[]|v] s' h']; simpl; auto.
Qed.

Lemma in_order_merged A B props s h :
  in_order (phases (AppLifecycle.bootstrap (combineLifecycles A B))) props s h
  = in_order (phases (AppLifecycle.bootstrap A) ++ phases (AppLifecycle.bootstrap B))
      props s h.
Proof. rewrite <- run_runLifecycleFn. apply run_merged_bootstrap. Qed.

(** X10.  Merging three lifecycle objects gives the same behaviour either
    way they are grouped: [bootstrap] runs the bootstrap functions of [A],
    [B] and [C] in that order, and [mount] and [unmount] are those of [C]. *)
Theorem combineLifecycles_assoc A B C props s h :
  let left := combineLifecycles (combineLifecycles A B) C in
  let right := combineLifecycles A (combineLifecycles B C) in
  run (runLifecycleFn (AppLifecycle.bootstrap left) props) s h
    = run (runLifecycleFn (AppLifecycle.bootstrap right) props) s h ∧
  run (runLifecycleFn (AppLifecycle.mount left) props) s h
    = run (runLifecycleFn (AppLifecycle.mount right) props) s h ∧
  run (runLifecycleFn (AppLifecycle.unmount left) props) s h
    = run (runLifecycleFn (AppLifecycle.unmount right) props) s h.
Proof.
  intros left right. subst left right. split; [|split].
  - rewrite !run_merged_bootstrap.
    rewrite (in_order_app (phases (AppLifecycle.bootstrap (combineLifecycles A B)))).
    rewrite (in_order_app (phases (AppLifecycle.bootstrap A))
               (phases (AppLifecycle.bootstrap (combineLifecycles B C)))).
    rewrite !in_order_merged, <- !in_order_app. by rewrite app_assoc.
  - reflexivity.
  - reflexivity.
Qed.
End LifecycleLaws.

(** ** The composables together *)

Section ComposablesTogether.
Implicit Types (a : Ambient) (h : list Event).


(** X12.  At every calling site, inside or outside an app, [useDatabase]
    and [useMigrationsComplete] return the [db] and the [migrationsComplete]
    of the record [useDatabaseContext] returns there: the fallbacks of the
    three accessors fit together. *)
Theorem accessors_agree_with_useDatabaseContext a h :
  ∃ context,
    completion (run useDatabaseContext a h) = Normal context ∧
    completion (run useDatabase a h) = Normal (DatabaseContext.db context) ∧
    completion (run useMigrationsComplete a h)
      = Normal (DatabaseContext.migrationsComplete context).
Proof.
  unfold useDatabaseContext, useDatabase, useMigrationsComplete, inject. run_program.
  destruct (provided a) as [context|]; run_program; eauto.
Qed.

(** X13.  [getEldrinGlobal] returns [window.__ELDRIN__] or null, calls
    nothing and changes nothing; [useEldrinGlobal] is the same; and what
    they and [useAuthHeaders] do depends on [window] alone, not on whether
    a database context is provided at the calling site. *)
Theorem shell_accessors_ignore_injection a a' h :
  window a = window a' →
  run getEldrinGlobal a h = mkOutcome (Normal (Window.__ELDRIN__ (window a))) a h ∧
  run useEldrinGlobal a h = run getEldrinGlobal a h ∧
  completion (run getEldrinGlobal a' h) = completion (run getEldrinGlobal a h) ∧
  completion (run useAuthHeaders a' h) = completion (run useAuthHeaders a h) ∧
  history (run useAuthHeaders a' h) = history (run useAuthHeaders a h).
Proof.
  intros Hwin.
  unfold useAuthHeaders, useEldrinGlobal, getEldrinGlobal. run_program.
  rewrite <- Hwin.
  destruct (Window.__ELDRIN__ (window a)) as [eldrin|]; run_program; [|done].
  destruct (EldrinGlobal.getAuthHeaders eldrin) as [f|]; run_program; done.
Qed.
End ComposablesTogether.

Section Rendering.
Variable runMigrations : JsFn (D1Database * MigrationOptions.t) MigrationResult.t.
Implicit Types (options : CreateAppOptions.t) (s : Closure) (h : list Event).

Lemma bootstrap_leaves_records_agreeing options p s h :
  agree s → agree (store (run (bootstrap runMigrations options p) s h)).
Proof.
  intros Hs. apply (always_settle agree).
  unfold bootstrap. expose.
  repeat (simpl; match goal with
    | |- _ ∧ _ => split
    | |- ∀ _, _ => intro
    | H : agree _ |- _ => destruct H as (? & ? & ?)
    | x : Completion _ |- _ => destruct x
    | |- context [match ?o with Some _ => _ | None => _ end] => destruct o
    | |- context [if ?b then _ else _] => destruct b
    | |- agree _ => unfold agree
    end);
  try done; try congruence.
Qed.

(** X14.  After a [bootstrap] that started from records in agreement,
    [render] builds the root component of the options with props [db],
    [migrationsComplete] and [migrationResult] equal to the fields of the
    context [useDatabaseContext] returns inside the app; it calls nothing
    and leaves the closure as it is. *)
Theorem render_shows_what_composables_see options p s h win h' :
  agree s →
  let c := store (run (bootstrap runMigrations options p) s h) in
  ∃ vnode context,
    run (render options) c h' = mkOutcome (Normal vnode) c h' ∧
    completion (run useDatabaseContext (inside_app c win) h') = Normal context ∧
    history (run useDatabaseContext (inside_app c win) h') = h' ∧
    type vnode = CreateAppOptions.root options ∧
    RootProps.db (props vnode) = DatabaseContext.db context ∧
    RootProps.migrationsComplete (props vnode) = DatabaseContext.migrationsComplete context ∧
    RootProps.migrationResult (props vnode) = DatabaseContext.migrationResult context.
Proof.
  intros Hs c.
  destruct (bootstrap_leaves_records_agreeing options p s h Hs) as (Hdb & Hmc & Hmr).
  fold c in Hdb, Hmc, Hmr.
  unfold render, useDatabaseContext, inject, inside_app. run_program.
  eexists _, _. repeat split; done.
Qed.

(** X15.  Merging the lifecycle [createApp] returns with a custom one: the
    merged [bootstrap] is the migration bootstrap followed, from the store
    and history it left and only when it resolved, by the custom bootstrap;
    the merged [mount] and [unmount] are the custom ones, so those
    [createApp] took from the bridge are not run. *)
Theorem combineLifecycles_after_createApp options vueLifecycles
    (custom : AppLifecycle.t Closure LifecycleProps.t) p s h :
  let merged := combineLifecycles (createApp runMigrations vueLifecycles options) custom in
  let migrated := run (bootstrap runMigrations options p) s h in
  run (runLifecycleFn (AppLifecycle.bootstrap merged) p) s h
    = match completion migrated with
      | Normal _ =>
          run (runLifecycleFn (AppLifecycle.bootstrap custom) p)
            (store migrated) (history migrated)
      | Throw _ => migrated
      end ∧
  run (runLifecycleFn (AppLifecycle.mount merged) p) s h
    = run (runLifecycleFn (AppLifecycle.mount custom) p) s h ∧
  run (runLifecycleFn (AppLifecycle.unmount merged) p) s h
    = run (runLifecycleFn (AppLifecycle.unmount custom) p) s h.
Proof.
  intros merged migrated. subst merged migrated. split; [|by split].
  simpl. rewrite run_bind.
  by destruct (run (bootstrap runMigrations options p) s h) as [[[]|v] s' h0].
Qed.
End Rendering.

(** ** The further properties at concrete inputs *)

Lemma bootstrap_without_migrations_witness :
  let o := run (bootstrap (runner_resolving example_success)
                  example_options_without_migrations example_props)
             createApp_closure [] in
  completion o = Normal tt ∧
  AppState.db (state (store o)) = Some example_db ∧
  DatabaseContext.db (databaseContext (store o)) = Some example_db ∧
  AppState.migrationsComplete (state (store o)) = true ∧
  DatabaseContext.migrationsComplete (databaseContext (store o)) = true ∧
  AppState.migrationResult (state (store o)) = None ∧
  DatabaseContext.migrationResult (databaseContext (store o)) = None ∧
  history o = [].
Proof.
  apply (bootstrap_without_migrations (runner_resolving example_success)
           example_options_without_migrations example_props example_db
           createApp_closure []);
    reflexivity.
Defined.




Lemma migrationsComplete_after_migrating_means_success_witness :
  let options := example_options (Some returning) None in
  let o := run (bootstrap (runner_resolving example_success) options example_props)
             createApp_closure [] in
  ∃ result,
    runner_resolving example_success (example_db, runner_options options) [] = Normal result ∧
    MigrationResult.success result = true ∧
    AppState.migrationsComplete (state (store o)) = true ∧
    AppState.migrationResult (state (store o)) = Some result ∧
    DatabaseContext.migrationResult (databaseContext (store o)) = Some result ∧
    completion o = Normal tt.
Proof.
  apply (migrationsComplete_after_migrating_means_success
           (runner_resolving example_success) (example_options (Some returning) None)
           example_props example_db createApp_closure []);
    [reflexivity | discriminate | reflexivity].
Defined.

Lemma shell_accessors_ignore_injection_witness :
  let headers : Headers := {[ "Authorization" := "Bearer token" ]} in
  let a := window_with (Some (capability_returning headers)) in
  let a' := mkAmbient (Some (DatabaseContext.mk (Some example_db) true None)) (window a) in
  run getEldrinGlobal a [] = mkOutcome (Normal (Window.__ELDRIN__ (window a))) a [] ∧
  run useEldrinGlobal a [] = run getEldrinGlobal a [] ∧
  completion (run getEldrinGlobal a' []) = completion (run getEldrinGlobal a []) ∧
  completion (run useAuthHeaders a' []) = completion (run useAuthHeaders a []) ∧
  history (run useAuthHeaders a' []) = history (run useAuthHeaders a []).
Proof.
  apply (shell_accessors_ignore_injection
           (window_with (Some (capability_returning {[ "Authorization" := "Bearer token" ]})))
           (mkAmbient (Some (DatabaseContext.mk (Some example_db) true None))
              (window (window_with
                         (Some (capability_returning {[ "Authorization" := "Bearer token" ]})))))
           []).
  reflexivity.
Defined.

Lemma render_shows_what_composables_see_witness :
  let options := example_options (Some returning) (Some returning) in
  let c := store (run (bootstrap (runner_resolving example_success) options example_props)
                    createApp_closure []) in
  ∃ vnode context,
    run (render options) c [] = mkOutcome (Normal vnode) c [] ∧
    completion (run useDatabaseContext (inside_app c (Window.mk None)) []) = Normal context ∧
    history (run useDatabaseContext (inside_app c (Window.mk None)) []) = [] ∧
    type vnode = CreateAppOptions.root options ∧
    RootProps.db (props vnode) = DatabaseContext.db context ∧
    RootProps.migrationsComplete (props vnode) = DatabaseContext.migrationsComplete context ∧
    RootProps.migrationResult (props vnode) = DatabaseContext.migrationResult context.
Proof.
  apply (render_shows_what_composables_see (runner_resolving example_success)
           (example_options (Some returning) (Some returning)) example_props
           createApp_closure [] (Window.mk None) []).
  repeat split; reflexivity.
Defined.
